(** * Azure Data Factory source ([gsp_adf_source/adf.py])

    A shallow embedding of the [ADFSource] extractor: the decoded JSON
    values it walks over, the Python operations it applies to them
    ([dict.get], [or], [==], iteration), the exceptions these raise, the
    two HTTP calls it makes, and the generator [next_record]. *)

From Stdlib Require Import ZArith Ascii String List Floats.SpecFloat.
From stdpp Require Import gmap strings list fin_maps.

Set Warnings "-register-all".

(** ** Python values

    What [Response.json()] hands back: [None], booleans, integers, floats,
    strings, lists and string-keyed dictionaries. *)

Inductive pyval : Type :=
| PNone
| PBool (b : bool)
| PInt (z : Z)
| PFloat (f : spec_float)
| PStr (s : string)
| PList (l : list pyval)
| PDict (d : gmap string pyval).

(** Python truthiness, as used by [or] and [if]. *)
Definition truthy (v : pyval) : bool :=
  match v with
  | PNone => false
  | PBool b => b
  | PInt z => negb (z =? 0)%Z
  | PFloat (S754_zero _) => false
  | PFloat _ => true
  | PStr "" => false
  | PStr _ => true
  | PList [] => false
  | PList _ => true
  | PDict d => negb (size d =? 0)%nat
  end.

(** [a or b] *)
Definition py_or (a b : pyval) : pyval := if truthy a then a else b.

(** [v == "literal"]: only a [str] with the same characters is equal. *)
Definition py_eq_str (v : pyval) (lit : string) : bool :=
  match v with
  | PStr s => bool_decide (s = lit)
  | _ => false
  end.

(** ** Exceptions *)

Record Response := mkResponse {
  status_code : Z;
  (** the body as [Response.json()] decodes it; [None] when it is not JSON *)
  json : option pyval
}.

Inductive transport_error := Timeout | ConnectionError.

Inductive exn : Type :=
| KeyError (key : string)
| AttributeError (attr : string)
| TypeError
| JSONDecodeError
| HTTPError (response : Response)
| RequestException (t : transport_error).

Inductive result (A : Type) : Type :=
| Ok (a : A)
| Raise (e : exn).
Arguments Ok {A} a.
Arguments Raise {A} e.

#[global] Instance result_ret : MRet result := @Ok.
#[global] Instance result_bind : MBind result :=
  λ A B f r, match r with Ok a => f a | Raise e => Raise e end.

(** [o.get(key, dflt)]: of the JSON values only a dict has a [get]. *)
Definition py_get (o : pyval) (key : string) (dflt : pyval) : result pyval :=
  match o with
  | PDict d => Ok (default dflt (d !! key))
  | _ => Raise (AttributeError "get")
  end.

(** [o[key]] with a string key. *)
Definition py_subscript (o : pyval) (key : string) : result pyval :=
  match o with
  | PDict d =>
      match d !! key with
      | Some v => Ok v
      | None => Raise (KeyError key)
      end
  | _ => Raise TypeError
  end.

(** [for x in v]: the elements the loop visits.  A string yields its
    characters and a dict its keys (all [str]; the key order of a [gmap]
    is not the insertion order). *)
Definition py_iter (v : pyval) : result (list pyval) :=
  match v with
  | PList l => Ok l
  | PStr s => Ok ((λ c, PStr (String c "")) <$> list_ascii_of_string s)
  | PDict d => Ok (PStr <$> (map_to_list d).*1)
  | _ => Raise TypeError
  end.

(** ** The generated schema classes

    [Task], [EntityReference] and [CreatePipelineRequest] come from the
    host framework; they are modelled as records of the keyword arguments
    they are built from. *)

Module Task.
Record t := mk {
  name : pyval;
  taskType : pyval;
  downstreamTasks : option (list pyval)
}.
End Task.

Module EntityReference.
Record t := mk {
  id : option string;
  type : string;
  name : string
}.
End EntityReference.

Module CreatePipelineRequest.
Record t := mk {
  name : pyval;
  displayName : pyval;
  description : pyval;
  service : EntityReference.t;
  tasks : list Task.t;
  sourceUrl : pyval
}.
End CreatePipelineRequest.

(** ** [_build_tasks] *)

(** The body of the [for act in ...] loop: the [Task] appended for [act]. *)
Definition _build_tasks_body (act : pyval) : result Task.t :=
  name ← py_get act "name" PNone;
  act_type ← py_get act "type" PNone;
  deps ← (if py_eq_str act_type "Copy" then
            tp ← py_get act "typeProperties" (PDict ∅);
            s ← py_get tp "sink" (PDict ∅);
            sink ← py_get (py_or s (PDict ∅)) "type" PNone;
            Ok (if truthy sink then [sink] else [])
          else Ok []);
  Ok (Task.mk (py_or name (PStr "activity"))
              (py_or act_type (PStr "Activity"))
              (match deps with [] => None | _ => Some deps end)).

Fixpoint _build_tasks_loop (acts : list pyval) (tasks : list Task.t)
  : result (list Task.t) :=
  match acts with
  | [] => Ok tasks
  | act :: rest =>
      t ← _build_tasks_body act;
      _build_tasks_loop rest (tasks ++ [t])
  end.

Definition _build_tasks (activities : pyval) : result (list Task.t) :=
  acts ← py_iter (py_or activities (PList []));
  _build_tasks_loop acts [].

(** ** The network and the runtime *)

Inductive http_method := GET | POST.

(** One outbound call, as the [requests] library receives it. *)
Record Request := mkRequest {
  req_method : http_method;
  req_url : string;
  req_headers : gmap string string;
  req_params : gmap string pyval;
  req_data : gmap string string;
  req_timeout : Z
}.

Inductive reply :=
| Responds (r : Response)
| Fails (t : transport_error).

(** What the program takes from its environment: [str()] as applied by an
    f-string, [urllib.parse.urljoin], the headers a fresh
    [requests.Session] starts with, and the remote servers, whose answer
    may depend on the calls made so far. *)
Record runtime := mkRuntime {
  py_str : pyval → string;
  urljoin : string → string → string;
  default_headers : gmap string string;
  net : list Request → Request → reply
}.

(** Computations that may raise and that log every request they send. *)
Definition M (A : Type) : Type := list Request → result A * list Request.

#[global] Instance M_ret : MRet M := λ A a log, (Ok a, log).
#[global] Instance M_bind : MBind M :=
  λ A B f m log,
    match m log with
    | (Ok a, log') => f a log'
    | (Raise e, log') => (Raise e, log')
    end.

Definition liftR {A} (r : result A) : M A := λ log, (r, log).

(** [Response.raise_for_status()] of the [requests] library: an
    [HTTPError] carrying the response for a 4xx or 5xx status, nothing
    otherwise. *)
Definition raise_for_status (r : Response) : result unit :=
  if ((400 <=? status_code r) && (status_code r <? 600))%Z
  then Raise (HTTPError r)
  else Ok tt.

(** [Response.json()] *)
Definition response_json (r : Response) : result pyval :=
  match json r with
  | Some v => Ok v
  | None => Raise JSONDecodeError
  end.

(** [opts[key]] on the connection options. *)
Definition opts_subscript (opts : gmap string string) (key : string)
  : result string :=
  match opts !! key with
  | Some v => Ok v
  | None => Raise (KeyError key)
  end.

Record Session := mkSession {
  headers : gmap string string
}.

Record ADFSource := mkADFSource {
  sub : string;
  rg : string;
  factory : string;
  tenant : string;
  cid : string;
  csec : string;
  service_name : string;
  project : string;
  token : pyval;
  sess : Session;
  api_version : string
}.

(** A finished run of a generator: the values it yielded, ended by
    exhaustion or by an exception. *)
Inductive gen (A : Type) : Type :=
| Done
| Yield (a : A) (rest : gen A)
| Abort (e : exn).
Arguments Done {A}.
Arguments Yield {A} a rest.
Arguments Abort {A} e.

Fixpoint yielded {A} (g : gen A) : list A :=
  match g with
  | Yield a rest => a :: yielded rest
  | _ => []
  end.

Fixpoint ending {A} (g : gen A) : option exn :=
  match g with
  | Done => None
  | Yield _ rest => ending rest
  | Abort e => Some e
  end.

Definition ARM : string := "https://management.azure.com/".

Section Extractor.
Variable rt : runtime.

(** One blocking HTTP call: the request is logged whether it is answered
    or not. *)
Definition send (req : Request) : M Response :=
  λ log,
    match net rt log req with
    | Responds r => (Ok r, log ++ [req])
    | Fails t => (Raise (RequestException t), log ++ [req])
    end.

(** The [requests.post] call of [_get_azure_token]. *)
Definition token_request (tenant_id client_id client_secret : string)
  : Request :=
  {| req_method := POST;
     req_url := "https://login.microsoftonline.com/" +:+ tenant_id
                +:+ "/oauth2/v2.0/token";
     req_headers := default_headers rt;
     req_params := ∅;
     req_data := {[ "grant_type" := "client_credentials";
                    "client_id" := client_id;
                    "client_secret" := client_secret;
                    "scope" := "https://management.azure.com/.default" ]};
     req_timeout := 30 |}.

Definition _get_azure_token (tenant_id client_id client_secret : string)
  : M pyval :=
  resp ← send (token_request tenant_id client_id client_secret);
  _ ← liftR (raise_for_status resp);
  body ← liftR (response_json resp);
  liftR (py_subscript body "access_token").

(** [opts] is [self.service_connection.connectionOptions.__root__], the
    connection options the host framework hands over. *)
Definition __init__ (opts : gmap string string) : M ADFSource :=
  sub ← liftR (opts_subscript opts "subscription_id");
  rg ← liftR (opts_subscript opts "resource_group");
  factory ← liftR (opts_subscript opts "factory_name");
  tenant ← liftR (opts_subscript opts "tenant_id");
  cid ← liftR (opts_subscript opts "client_id");
  csec ← liftR (opts_subscript opts "client_secret");
  service_name ← liftR (opts_subscript opts "service_name");
  let project := default "default" (opts !! "project") in
  token ← _get_azure_token tenant cid csec;
  let sess := mkSession (default_headers rt) in
  let sess :=
    mkSession (<["Authorization" := "Bearer " +:+ py_str rt token]>
                 (headers sess)) in
  mret (mkADFSource sub rg factory tenant cid csec service_name project
                    token sess "2018-06-01").

Definition prepare (self : ADFSource) : M unit := mret tt.

(** The query parameters [_arm] passes on: [p = {"api-version": ...}],
    then [p.update(params)] when [params] is given and not empty. *)
Definition _arm_params (self : ADFSource)
    (params : option (gmap string pyval)) : gmap string pyval :=
  let p : gmap string pyval := {[ "api-version" := PStr (api_version self) ]} in
  match params with
  | Some extra => if truthy (PDict extra) then extra ∪ p else p
  | None => p
  end.

(** The [self.sess.get] call of [_arm]. *)
Definition _arm_request (self : ADFSource) (path : string)
    (params : option (gmap string pyval)) : Request :=
  {| req_method := GET;
     req_url := urljoin rt ARM path;
     req_headers := headers (sess self);
     req_params := _arm_params self params;
     req_data := ∅;
     req_timeout := 60 |}.

Definition _arm (self : ADFSource) (path : string)
    (params : option (gmap string pyval)) : M pyval :=
  r ← send (_arm_request self path params);
  _ ← liftR (raise_for_status r);
  liftR (response_json r).

Definition pipelines_path (self : ADFSource) : string :=
  "/subscriptions/" +:+ sub self +:+ "/resourceGroups/" +:+ rg self
  +:+ "/providers/Microsoft.DataFactory/factories/" +:+ factory self
  +:+ "/pipelines".

Definition _list_pipelines (self : ADFSource) : M pyval :=
  data ← _arm self (pipelines_path self) None;
  liftR (py_get data "value" (PList [])).

(** The body of the [for p in ...] loop of [next_record]: the record
    yielded for [p]. *)
Definition next_record_body (self : ADFSource) (p : pyval)
  : result CreatePipelineRequest.t :=
  name ← py_get p "name" PNone;
  props ← py_get p "properties" (PDict ∅);
  acts ← py_get props "activities" (PList []);
  tasks ← _build_tasks acts;
  description ← py_get props "description" PNone;
  id ← py_get p "id" PNone;
  Ok (CreatePipelineRequest.mk
        name name description
        (EntityReference.mk None "pipelineService" (service_name self))
        tasks
        (py_or id (PStr ""))).

Fixpoint next_record_loop (self : ADFSource) (ps : list pyval)
  : gen CreatePipelineRequest.t :=
  match ps with
  | [] => Done
  | p :: rest =>
      match next_record_body self p with
      | Ok r => Yield r (next_record_loop self rest)
      | Raise e => Abort e
      end
  end.

(** The generator, run until it is exhausted or raises. *)
Definition next_record (self : ADFSource)
  : list Request → gen CreatePipelineRequest.t * list Request :=
  λ log,
    match _list_pipelines self log with
    | (Raise e, log') => (Abort e, log')
    | (Ok v, log') =>
        (match py_iter v with
         | Ok ps => next_record_loop self ps
         | Raise e => Abort e
         end, log')
    end.

End Extractor.


(** ** Reading descriptors

    The vocabulary in which the properties below are stated. *)

(** A field of a descriptor, or [fallback] when the field is absent or
    empty (falsy: [None], [""], [0], [[]], [{}], [False]). *)
Definition field_or (field : option pyval) (fallback : pyval) : pyval :=
  match field with
  | Some v => if truthy v then v else fallback
  | None => fallback
  end.

(** A field that is absent or empty. *)
Definition absent_or_empty (field : option pyval) : bool :=
  match field with
  | Some v => negb (truthy v)
  | None => true
  end.

(** The type of an activity descriptor is exactly ["Copy"]. *)
Definition is_copy (d : gmap string pyval) : bool :=
  match d !! "type" with
  | Some v => py_eq_str v "Copy"
  | None => false
  end.

(** The nested field [typeProperties.sink.type] of an activity descriptor. *)
Definition sink_type (d : gmap string pyval) : option pyval :=
  match d !! "typeProperties" with
  | Some (PDict tp) =>
      match tp !! "sink" with
      | Some (PDict s) => s !! "type"
      | _ => None
      end
  | _ => None
  end.

(** An activity descriptor [_build_tasks] gets through: an object, and
    when its type is ["Copy"], [typeProperties] is absent or an object
    whose [sink] is absent, falsy or an object. *)
Definition activity_ok (act : pyval) : bool :=
  match act with
  | PDict d =>
      if is_copy d then
        match d !! "typeProperties" with
        | None => true
        | Some (PDict tp) =>
            match tp !! "sink" with
            | None | Some (PDict _) => true
            | Some s => negb (truthy s)
            end
        | Some _ => false
        end
      else true
  | _ => false
  end.

(** The activity descriptors the loop of [_build_tasks] visits when
    [activities] is absent-like (falsy) or a list. *)
Definition activity_list (activities : pyval) : option (list pyval) :=
  match py_or activities (PList []) with
  | PList l => Some l
  | _ => None
  end.

Definition activities_ok (activities : pyval) : bool :=
  match activity_list activities with
  | Some l => forallb activity_ok l
  | None => false
  end.

(** The [properties] object of a pipeline descriptor ([{}] when the field
    is absent). *)
Definition pipeline_properties (d : gmap string pyval)
  : option (gmap string pyval) :=
  match d !! "properties" with
  | None => Some ∅
  | Some (PDict pr) => Some pr
  | Some _ => None
  end.

(** The value handed to [_build_tasks] for a pipeline descriptor. *)
Definition pipeline_activities (p : pyval) : option pyval :=
  match p with
  | PDict d =>
      pr ← pipeline_properties d;
      Some (default (PList []) (pr !! "activities"))
  | _ => None
  end.

(** A pipeline descriptor [next_record] gets through: an object whose
    [properties] is absent or an object, with activities as above. *)
Definition pipeline_ok (p : pyval) : bool :=
  match pipeline_activities p with
  | Some acts => activities_ok acts
  | None => false
  end.

(** The record the extraction driver is to emit for descriptor [p],
    field by field. *)
Definition record_for (self : ADFSource) (p : pyval)
    (r : CreatePipelineRequest.t) : Prop :=
  ∃ d pr,
    p = PDict d ∧ pipeline_properties d = Some pr ∧
    CreatePipelineRequest.name r = default PNone (d !! "name") ∧
    CreatePipelineRequest.displayName r = default PNone (d !! "name") ∧
    CreatePipelineRequest.description r = default PNone (pr !! "description") ∧
    EntityReference.name (CreatePipelineRequest.service r) = service_name self ∧
    EntityReference.id (CreatePipelineRequest.service r) = None ∧
    CreatePipelineRequest.sourceUrl r = field_or (d !! "id") (PStr "").

(** The tasks of [r] are those of the activity descriptors of [p], one
    for one and in the same order. *)
Definition tasks_for (p : pyval) (r : CreatePipelineRequest.t) : Prop :=
  ∃ acts l,
    pipeline_activities p = Some acts ∧ activity_list acts = Some l ∧
    Forall2 (λ a t, _build_tasks_body a = Ok t) l
            (CreatePipelineRequest.tasks r).

(** The options [__init__] subscripts, in the order it does. *)
Definition required_options : list string :=
  ["subscription_id"; "resource_group"; "factory_name"; "tenant_id";
   "client_id"; "client_secret"; "service_name"].

(** ** Example data

    The end-to-end scenario of the specification, and variations of it. *)

Definition copyA_fields : gmap string pyval :=
  {[ "name" := PStr "copyA"; "type" := PStr "Copy";
     "typeProperties" :=
       PDict {[ "sink" := PDict {[ "type" := PStr "BlobSink" ]} ]} ]}.

Definition pipeline_p1 : pyval :=
  PDict {[ "name" := PStr "p1"; "id" := PStr "/sub/.../p1";
           "properties" :=
             PDict {[ "description" := PStr "d";
                      "activities" := PList [PDict copyA_fields] ]} ]}.

Definition token_body : pyval := PDict {[ "access_token" := PStr "tok" ]}.

(** A runtime whose token endpoint and listing endpoint each always give
    the same answer.  Its [py_str] is [str()] on strings, its [urljoin]
    joins a base that ends in [/] with a path. *)
Definition example_runtime (token_reply listing_reply : Response) : runtime :=
  {| py_str := λ v, match v with PStr s => s | _ => "" end;
     urljoin := λ base path,
       match path with
       | String "/"%char rest => base +:+ rest
       | _ => base +:+ path
       end;
     default_headers := ∅;
     net := λ _ req,
       match req_method req with
       | POST => Responds token_reply
       | GET => Responds listing_reply
       end |}.

Definition scenario_runtime : runtime :=
  example_runtime
    (mkResponse 200 (Some token_body))
    (mkResponse 200 (Some (PDict {[ "value" := PList [pipeline_p1] ]}))).

Definition scenario_opts : gmap string string :=
  {[ "subscription_id" := "s1"; "resource_group" := "rg1";
     "factory_name" := "f1"; "tenant_id" := "t1"; "client_id" := "c1";
     "client_secret" := "secret"; "service_name" := "svc" ]}.

(** The extractor [__init__] builds in the scenario. *)
Definition scenario_self : ADFSource :=
  mkADFSource "s1" "rg1" "f1" "t1" "c1" "secret" "svc" "default"
              (PStr "tok") (mkSession {[ "Authorization" := "Bearer tok" ]})
              "2018-06-01".

Definition scenario_listing : Request :=
  _arm_request scenario_runtime scenario_self
               (pipelines_path scenario_self) None.

(** Pipelines [A] and [B] with activities [a1, a2] and [b1]. *)
Definition pipeline_A : pyval :=
  PDict {[ "name" := PStr "A"; "id" := PStr "/A";
           "properties" :=
             PDict {[ "activities" :=
                        PList [PDict {[ "name" := PStr "a1";
                                        "type" := PStr "Wait" ]};
                               PDict {[ "name" := PStr "a2";
                                        "type" := PStr "Copy" ]}] ]} ]}.

Definition pipeline_B : pyval :=
  PDict {[ "name" := PStr "B"; "id" := PStr "/B";
           "properties" :=
             PDict {[ "activities" :=
                        PList [PDict {[ "name" := PStr "b1";
                                        "type" := PStr "Lookup" ]}] ]} ]}.

Definition two_pipelines_runtime : runtime :=
  example_runtime
    (mkResponse 200 (Some token_body))
    (mkResponse 200
       (Some (PDict {[ "value" := PList [pipeline_A; pipeline_B] ]}))).

(** A first page that announces a second one. *)
Definition paged_runtime : runtime :=
  example_runtime
    (mkResponse 200 (Some token_body))
    (mkResponse 200
       (Some (PDict {[ "value" := PList [pipeline_p1];
                       "nextLink" := PStr "https://management.azure.com/next" ]}))).

(** Both endpoints refuse. *)
Definition refusing_runtime : runtime :=
  example_runtime (mkResponse 401 None) (mkResponse 403 None).

(** Both endpoints answer with status 300 and a well-formed body. *)
Definition status_300_runtime : runtime :=
  example_runtime
    (mkResponse 300 (Some token_body))
    (mkResponse 300 (Some (PDict {[ "value" := PList [pipeline_p1] ]}))).

(** A ["Copy"] activity whose [typeProperties] is null, and one whose
    [sink] is null. *)
Definition null_typeProperties_activity : pyval :=
  PDict {[ "name" := PStr "a"; "type" := PStr "Copy";
           "typeProperties" := PNone ]}.

Definition null_sink_activity : pyval :=
  PDict {[ "name" := PStr "a"; "type" := PStr "Copy";
           "typeProperties" := PDict {[ "sink" := PNone ]} ]}.

(** Extra query parameters that bring their own [api-version]. *)
Definition own_api_version : gmap string pyval :=
  {[ "api-version" := PStr "2015-10-01" ]}.

Definition top_5 : gmap string pyval := {[ "$top" := PInt 5 ]}.

(** A pipeline descriptor whose activities are null. *)
Definition null_activities_fields : gmap string pyval :=
  {[ "name" := PStr "empty";
     "properties" := PDict {[ "activities" := PNone ]} ]}.

(** ** Further vocabulary *)

(** Values a [for] loop cannot iterate over. *)
Definition not_iterable (v : pyval) : bool :=
  match v with
  | PNone | PBool _ | PInt _ | PFloat _ => true
  | _ => false
  end.

(** What holds of every Task the flattener builds: a name and a type
    that are not empty, and either no downstream list or a list of one
    non-empty entry on a ["Copy"] task. *)
Definition task_well_formed (t : Task.t) : Prop :=
  truthy (Task.name t) = true ∧
  truthy (Task.taskType t) = true ∧
  (Task.downstreamTasks t = None ∨
   ∃ v, Task.downstreamTasks t = Some [v] ∧ truthy v = true ∧
        Task.taskType t = PStr "Copy").

(** What holds of every record the driver yields. *)
Definition record_well_formed (self : ADFSource)
    (r : CreatePipelineRequest.t) : Prop :=
  CreatePipelineRequest.displayName r = CreatePipelineRequest.name r ∧
  CreatePipelineRequest.service r
    = EntityReference.mk None "pipelineService" (service_name self) ∧
  (CreatePipelineRequest.sourceUrl r = PStr "" ∨
   truthy (CreatePipelineRequest.sourceUrl r) = true) ∧
  Forall task_well_formed (CreatePipelineRequest.tasks r).

(** The first required option [opts] lacks, in the order [__init__]
    reads them. *)
Definition first_missing (opts : gmap string string) : option string :=
  find (λ k, match opts !! k with None => true | Some _ => false end)
       required_options.

(** ** Further example data *)

(** A pipeline descriptor whose [properties] is null. *)
Definition null_properties_pipeline : pyval :=
  PDict {[ "name" := PStr "broken"; "properties" := PNone ]}.

Definition broken_second_runtime : runtime :=
  example_runtime
    (mkResponse 200 (Some token_body))
    (mkResponse 200
       (Some (PDict {[ "value" :=
                         PList [pipeline_p1; null_properties_pipeline;
                                pipeline_B] ]}))).

(** The listing answers [{"value": null}]. *)
Definition null_value_runtime : runtime :=
  example_runtime
    (mkResponse 200 (Some token_body))
    (mkResponse 200 (Some (PDict {[ "value" := PNone ]}))).

(** Every call times out. *)
Definition timeout_runtime : runtime :=
  mkRuntime (py_str scenario_runtime) (urljoin scenario_runtime) ∅
            (λ _ _, Fails Timeout).

(** Bodies that are not JSON. *)
Definition not_json_runtime : runtime :=
  example_runtime (mkResponse 200 None) (mkResponse 200 None).

(** A token body without [access_token], a listing body that is a list. *)
Definition odd_bodies_runtime : runtime :=
  example_runtime (mkResponse 200 (Some (PDict ∅)))
                  (mkResponse 200 (Some (PList []))).

Definition project_opts : gmap string string :=
  <["project" := "analytics"]> scenario_opts.

(** A ["Copy"] activity whose [sink] is a string. *)
Definition string_sink_activity : pyval :=
  PDict {[ "name" := PStr "a"; "type" := PStr "Copy";
           "typeProperties" := PDict {[ "sink" := PStr "BlobSink" ]} ]}.

(** ** The activity flattener *)

Lemma py_or_default (o : option pyval) (fb : pyval) :
  py_or (default PNone o) fb = field_or o fb.
Proof. destruct o; reflexivity. Qed.

Lemma py_eq_str_type (d : gmap string pyval) :
  py_eq_str (default PNone (d !! "type")) "Copy" = is_copy d.
Proof. unfold is_copy. destruct (d !! "type"); reflexivity. Qed.

Lemma py_get_empty (key : string) (dflt : pyval) :
  py_get (PDict ∅) key dflt = Ok dflt.
Proof. unfold py_get. rewrite lookup_empty. reflexivity. Qed.

Lemma py_or_falsy (v fb : pyval) : truthy v = false → py_or v fb = fb.
Proof. unfold py_or. intros ->. reflexivity. Qed.

Lemma py_or_dict_get (s : gmap string pyval) (key : string) :
  py_get (py_or (PDict s) (PDict ∅)) key PNone = Ok (default PNone (s !! key)).
Proof.
  unfold py_or. destruct (truthy (PDict s)) eqn:Hs; [reflexivity|].
  rewrite py_get_empty. cbn in Hs.
  apply negb_false_iff, Nat.eqb_eq, map_size_empty_iff in Hs. subst s.
  rewrite lookup_empty. reflexivity.
Qed.

Lemma _build_tasks_body_dict (d : gmap string pyval) :
  activity_ok (PDict d) = true →
  _build_tasks_body (PDict d) =
    Ok (Task.mk (field_or (d !! "name") (PStr "activity"))
                (field_or (d !! "type") (PStr "Activity"))
                (if is_copy d then
                   match sink_type d with
                   | Some v => if truthy v then Some [v] else None
                   | None => None
                   end
                 else None)).
Proof.
  intros Hok. unfold _build_tasks_body. cbn [py_get mbind result_bind].
  rewrite !py_or_default, py_eq_str_type.
  unfold activity_ok in Hok. unfold sink_type.
  destruct (is_copy d); [|reflexivity].
  destruct (d !! "typeProperties") as [tp|]; cbn [default from_option id].
  - destruct tp as [| | | | | |tpd]; try discriminate Hok.
    cbn [py_get mbind result_bind].
    destruct (tpd !! "sink") as [s|]; cbn [default from_option id].
    + destruct s as [| | | | | |sd];
        try (rewrite (py_or_falsy _ _ (proj1 (negb_true_iff _) Hok)),
               py_get_empty; reflexivity).
      rewrite py_or_dict_get. cbn [mbind result_bind].
      destruct (sd !! "type") as [v|]; cbn [default from_option id];
        [destruct (truthy v)|]; reflexivity.
    + rewrite py_or_falsy by reflexivity. rewrite py_get_empty. reflexivity.
  - rewrite py_get_empty. cbn [mbind result_bind].
    rewrite py_or_falsy by reflexivity. rewrite py_get_empty. reflexivity.
Qed.

Lemma activity_ok_not_copy (d : gmap string pyval) :
  is_copy d = false → activity_ok (PDict d) = true.
Proof. unfold activity_ok. intros ->. reflexivity. Qed.

Lemma field_or_absent (o : option pyval) (fb : pyval) :
  absent_or_empty o = true → field_or o fb = fb.
Proof.
  destruct o as [v|]; [|reflexivity]. cbn.
  intros Hv%negb_true_iff. rewrite Hv. reflexivity.
Qed.

Lemma field_or_present (v fb : pyval) :
  truthy v = true → field_or (Some v) fb = v.
Proof. cbn. intros ->. reflexivity. Qed.

(** C2. The downstream list of the Task built for an activity descriptor
    is the one-element list holding [typeProperties.sink.type] exactly
    when the type is ["Copy"] and that nested value is present and not
    empty.  A descriptor of any other type gets no downstream list
    whatever else it holds, and so does a ["Copy"] descriptor whose sink
    type is missing or empty: the list is absent ([None]), not [[]]. *)
Theorem downstream_tasks_from_copy_sink (d : gmap string pyval) :
  (is_copy d = false →
   ∃ t, _build_tasks_body (PDict d) = Ok t ∧ Task.downstreamTasks t = None) ∧
  (is_copy d = true → activity_ok (PDict d) = true →
   ∃ t, _build_tasks_body (PDict d) = Ok t ∧
        (∀ v, sink_type d = Some v → truthy v = true →
              Task.downstreamTasks t = Some [v]) ∧
        (absent_or_empty (sink_type d) = true →
         Task.downstreamTasks t = None)).
Proof.
  split.
  - intros Hc. rewrite _build_tasks_body_dict by (apply activity_ok_not_copy, Hc).
    eexists; split; [reflexivity|]. cbn. rewrite Hc. reflexivity.
  - intros Hc Hok. rewrite _build_tasks_body_dict by exact Hok.
    eexists; split; [reflexivity|]. cbn. rewrite Hc. split.
    + intros v -> ->. reflexivity.
    + destruct (sink_type d) as [v|]; [|reflexivity].
      cbn. intros ->%negb_true_iff. reflexivity.
Qed.

(** C3. A descriptor whose name is absent or empty yields a Task named
    ["activity"], one whose type is absent or empty yields task type
    ["Activity"]; otherwise the Task carries the descriptor's own name
    and type. *)
Theorem task_name_and_type_fallback (d : gmap string pyval) :
  activity_ok (PDict d) = true →
  ∃ t, _build_tasks_body (PDict d) = Ok t ∧
       (absent_or_empty (d !! "name") = true →
        Task.name t = PStr "activity") ∧
       (absent_or_empty (d !! "type") = true →
        Task.taskType t = PStr "Activity") ∧
       (∀ v, d !! "name" = Some v → truthy v = true → Task.name t = v) ∧
       (∀ v, d !! "type" = Some v → truthy v = true → Task.taskType t = v).
Proof.
  intros Hok. rewrite _build_tasks_body_dict by exact Hok.
  eexists; split; [reflexivity|]. cbn [Task.name Task.taskType].
  repeat split.
  - apply field_or_absent.
  - apply field_or_absent.
  - intros v ->. apply field_or_present.
  - intros v ->. apply field_or_present.
Qed.

Lemma _build_tasks_loop_Forall2 (acts : list pyval) (ts acc : list Task.t) :
  Forall2 (λ a t, _build_tasks_body a = Ok t) acts ts →
  _build_tasks_loop acts acc = Ok (acc ++ ts).
Proof.
  intros H. revert acc.
  induction H as [|a t acts ts Ha _ IH]; intros acc; cbn.
  - rewrite app_nil_r. reflexivity.
  - rewrite Ha. cbn. rewrite IH, <- app_assoc. reflexivity.
Qed.

Lemma activity_ok_builds (act : pyval) :
  activity_ok act = true → ∃ t, _build_tasks_body act = Ok t.
Proof.
  destruct act; try discriminate.
  intros H. rewrite _build_tasks_body_dict by exact H. eauto.
Qed.

Lemma activities_build (l : list pyval) :
  forallb activity_ok l = true →
  ∃ ts, Forall2 (λ a t, _build_tasks_body a = Ok t) l ts.
Proof.
  induction l as [|a l IH]; cbn.
  - exists []. constructor.
  - intros [Ha Hl]%andb_true_iff.
    destruct (activity_ok_builds a Ha) as [t Ht], (IH Hl) as [ts Hts].
    exists (t :: ts). constructor; assumption.
Qed.

Lemma _build_tasks_ok (activities : pyval) :
  activities_ok activities = true →
  ∃ l ts, activity_list activities = Some l ∧
          _build_tasks activities = Ok ts ∧
          Forall2 (λ a t, _build_tasks_body a = Ok t) l ts.
Proof.
  unfold activities_ok, activity_list, _build_tasks.
  destruct (py_or activities (PList [])); try discriminate.
  intros [ts Hts]%activities_build. exists l, ts.
  split; [reflexivity|]. split; [|exact Hts].
  cbn. apply (_build_tasks_loop_Forall2 _ _ [] Hts).
Qed.

(** ** The extraction driver *)

Lemma py_get_properties (d pr : gmap string pyval) :
  pipeline_properties d = Some pr →
  py_get (PDict d) "properties" (PDict ∅) = Ok (PDict pr).
Proof.
  unfold pipeline_properties, py_get.
  destruct (d !! "properties") as [[]|]; intros H; try discriminate H;
    injection H as <-; reflexivity.
Qed.

Lemma next_record_body_ok (self : ADFSource) (p : pyval) :
  pipeline_ok p = true →
  ∃ r, next_record_body self p = Ok r ∧ record_for self p r ∧ tasks_for p r.
Proof.
  unfold pipeline_ok. destruct p as [| | | | | |d]; try discriminate.
  cbn [pipeline_activities mbind option_bind].
  destruct (pipeline_properties d) as [pr|] eqn:Hpr; [|discriminate].
  cbn [mbind option_bind].
  intros Hacts. apply _build_tasks_ok in Hacts as (l & ts & Hl & Hts & Hall).
  unfold next_record_body. rewrite (py_get_properties d pr Hpr).
  cbn [py_get mbind result_bind]. rewrite Hts. cbn [mbind result_bind].
  eexists. split; [reflexivity|]. split.
  - exists d, pr. rewrite <- py_or_default. repeat split; try reflexivity.
    exact Hpr.
  - eexists _, l. cbn [pipeline_activities mbind option_bind].
    rewrite Hpr. cbn [mbind option_bind CreatePipelineRequest.tasks].
    repeat split; assumption.
Qed.

Lemma next_record_loop_ok (self : ADFSource) (ps : list pyval) :
  forallb pipeline_ok ps = true →
  ending (next_record_loop self ps) = None ∧
  Forall2 (λ p r, next_record_body self p = Ok r)
          ps (yielded (next_record_loop self ps)).
Proof.
  induction ps as [|p ps IH]; cbn.
  - split; [reflexivity|constructor].
  - intros [Hp Hps]%andb_true_iff.
    destruct (next_record_body_ok self p Hp) as (r & Hr & _).
    rewrite Hr. cbn. destruct (IH Hps) as [He Hy].
    split; [exact He|]. constructor; assumption.
Qed.

Lemma next_record_listed (rt : runtime) (self : ADFSource)
    (log log' : list Request) (ps : list pyval) :
  _list_pipelines rt self log = (Ok (PList ps), log') →
  next_record rt self log = (next_record_loop self ps, log').
Proof. unfold next_record. intros ->. reflexivity. Qed.

Lemma next_record_body_fields (self : ADFSource) (p : pyval)
    (r : CreatePipelineRequest.t) :
  pipeline_ok p = true → next_record_body self p = Ok r →
  record_for self p r ∧ tasks_for p r.
Proof.
  intros Hp Hr. destruct (next_record_body_ok self p Hp) as (r' & Hr' & H).
  rewrite Hr in Hr'. injection Hr' as <-. exact H.
Qed.

Lemma Forall2_forallb_impl {A B} (ok : A → bool) (R S : A → B → Prop)
    (l : list A) (k : list B) :
  (∀ a b, ok a = true → R a b → S a b) →
  forallb ok l = true → Forall2 R l k → Forall2 S l k.
Proof.
  intros HRS Hl H. induction H as [|a b l k Hab _ IH]; [constructor|].
  cbn in Hl. apply andb_true_iff in Hl as [Ha Hl].
  constructor; [apply HRS; assumption | apply IH, Hl].
Qed.

(** C1. For each pipeline descriptor of the listing, [next_record] emits
    one creation record: name and displayName are the descriptor's name,
    description is [properties.description] as it is (possibly null), the
    service reference has the configured [service_name] and no id, and
    sourceUrl is the descriptor's id, or the empty string when the id is
    absent or empty. *)
Theorem next_record_one_record_per_pipeline (rt : runtime)
    (self : ADFSource) (log log' : list Request) (ps : list pyval) :
  _list_pipelines rt self log = (Ok (PList ps), log') →
  forallb pipeline_ok ps = true →
  ∃ g, next_record rt self log = (g, log') ∧ ending g = None ∧
       Forall2 (record_for self) ps (yielded g).
Proof.
  intros Hlist Hps. exists (next_record_loop self ps).
  destruct (next_record_loop_ok self ps Hps) as [He Hy].
  split; [apply next_record_listed, Hlist|]. split; [exact He|].
  apply (Forall2_forallb_impl pipeline_ok _ _ _ _) with (2 := Hps) (3 := Hy).
  intros p r Hp Hr. apply (next_record_body_fields self p r Hp Hr).
Qed.

(** C4. The records come out in the order in which the listing returned
    the pipeline descriptors, and within each record the Tasks are those
    of the pipeline's activity descriptors, one Task per descriptor and in
    the source order. *)
Theorem next_record_preserves_order (rt : runtime)
    (self : ADFSource) (log log' : list Request) (ps : list pyval) :
  _list_pipelines rt self log = (Ok (PList ps), log') →
  forallb pipeline_ok ps = true →
  ∃ g, next_record rt self log = (g, log') ∧ ending g = None ∧
       Forall2 (λ p r, next_record_body self p = Ok r ∧ tasks_for p r)
               ps (yielded g).
Proof.
  intros Hlist Hps. exists (next_record_loop self ps).
  destruct (next_record_loop_ok self ps Hps) as [He Hy].
  split; [apply next_record_listed, Hlist|]. split; [exact He|].
  apply (Forall2_forallb_impl pipeline_ok _ _ _ _) with (2 := Hps) (3 := Hy).
  intros p r Hp Hr. split; [exact Hr|].
  apply (next_record_body_fields self p r Hp Hr).
Qed.

(** C10. A pipeline descriptor whose [properties.activities] is absent,
    null or an empty list still gets its record: the generator yields it
    and goes on, its tasks list is empty and its other fields are built
    as for any descriptor. *)
Theorem no_activities_empty_tasks (self : ADFSource)
    (d pr : gmap string pyval) (rest : list pyval) :
  pipeline_properties d = Some pr →
  pr !! "activities" = None ∨ pr !! "activities" = Some PNone ∨
    pr !! "activities" = Some (PList []) →
  ∃ r, next_record_loop self (PDict d :: rest)
         = Yield r (next_record_loop self rest) ∧
       CreatePipelineRequest.tasks r = [] ∧
       record_for self (PDict d) r.
Proof.
  intros Hpr Hacts.
  assert (Hl : activity_list (default (PList []) (pr !! "activities"))
               = Some []).
  { destruct Hacts as [-> | [-> | ->]]; reflexivity. }
  assert (Hok : pipeline_ok (PDict d) = true).
  { unfold pipeline_ok, activities_ok. cbn [pipeline_activities].
    rewrite Hpr. cbn [mbind option_bind]. rewrite Hl. reflexivity. }
  destruct (next_record_body_ok self _ Hok) as (r & Hr & Hrec & Htasks).
  exists r. cbn [next_record_loop]. rewrite Hr.
  split; [reflexivity|]. split; [|exact Hrec].
  destruct Htasks as (acts & l & Ha & Hl' & Hall).
  cbn [pipeline_activities] in Ha. rewrite Hpr in Ha.
  cbn [mbind option_bind] in Ha. injection Ha as <-.
  rewrite Hl in Hl'. injection Hl' as <-.
  inversion Hall. reflexivity.
Qed.

(** ** The HTTP calls *)

Lemma send_run (rt : runtime) (req : Request) (log : list Request) :
  send rt req log =
    (match net rt log req with
     | Responds r => Ok r
     | Fails t => Raise (RequestException t)
     end, log ++ [req]).
Proof. unfold send. destruct (net rt log req); reflexivity. Qed.

Lemma _get_azure_token_run (rt : runtime)
    (tenant_id client_id client_secret : string) (log : list Request) :
  _get_azure_token rt tenant_id client_id client_secret log =
    (match net rt log (token_request rt tenant_id client_id client_secret) with
     | Responds r =>
         _ ← raise_for_status r;
         body ← response_json r;
         py_subscript body "access_token"
     | Fails t => Raise (RequestException t)
     end,
     log ++ [token_request rt tenant_id client_id client_secret]).
Proof.
  unfold _get_azure_token, mbind at 1, M_bind. rewrite send_run.
  destruct (net rt log _) as [r|t]; [|reflexivity].
  unfold mbind, M_bind, liftR.
  destruct (raise_for_status r) as [[]|e]; [|reflexivity].
  destruct (response_json r); reflexivity.
Qed.

Lemma _arm_run (rt : runtime) (self : ADFSource) (path : string)
    (params : option (gmap string pyval)) (log : list Request) :
  _arm rt self path params log =
    (match net rt log (_arm_request rt self path params) with
     | Responds r => _ ← raise_for_status r; response_json r
     | Fails t => Raise (RequestException t)
     end,
     log ++ [_arm_request rt self path params]).
Proof.
  unfold _arm, mbind at 1, M_bind. rewrite send_run.
  destruct (net rt log _) as [r|t]; [|reflexivity].
  unfold mbind, M_bind, liftR.
  destruct (raise_for_status r) as [[]|e]; reflexivity.
Qed.

Lemma _list_pipelines_run (rt : runtime) (self : ADFSource)
    (log : list Request) :
  _list_pipelines rt self log =
    (match net rt log (_arm_request rt self (pipelines_path self) None) with
     | Responds r =>
         _ ← raise_for_status r;
         data ← response_json r;
         py_get data "value" (PList [])
     | Fails t => Raise (RequestException t)
     end,
     log ++ [_arm_request rt self (pipelines_path self) None]).
Proof.
  unfold _list_pipelines, mbind at 1, M_bind. rewrite _arm_run.
  destruct (net rt log _) as [r|t]; [|reflexivity].
  destruct (raise_for_status r) as [[]|e]; [|reflexivity].
  cbn [mbind result_bind]. destruct (response_json r); reflexivity.
Qed.

Lemma raise_for_status_error (r : Response) :
  (400 ≤ status_code r < 600)%Z → raise_for_status r = Raise (HTTPError r).
Proof.
  intros [H1 H2]. unfold raise_for_status.
  apply Z.leb_le in H1. apply Z.ltb_lt in H2. rewrite H1, H2. reflexivity.
Qed.

(** C9. The listing step makes one GET and returns the [value] array of
    that one response, whatever else the body holds; it returns the empty
    list when [value] is absent. *)
Theorem _list_pipelines_first_page (rt : runtime) (self : ADFSource)
    (log : list Request) (r : Response) (body : gmap string pyval) :
  net rt log (_arm_request rt self (pipelines_path self) None) = Responds r →
  raise_for_status r = Ok tt →
  json r = Some (PDict body) →
  ∃ v, _list_pipelines rt self log =
         (Ok v, log ++ [_arm_request rt self (pipelines_path self) None]) ∧
       (∀ x, body !! "value" = Some x → v = x) ∧
       (body !! "value" = None → v = PList []).
Proof.
  intros Hnet Hst Hjson. rewrite _list_pipelines_run, Hnet, Hst.
  unfold response_json. rewrite Hjson. cbn [mbind result_bind py_get].
  eexists. split; [reflexivity|].
  split; [intros x ->|intros ->]; reflexivity.
Qed.

Lemma bind_opts_subscript {A} (opts : gmap string string) (key : string)
    (k : string → M A) (log : list Request) :
  (liftR (opts_subscript opts key) ≫= k) log =
    match opts !! key with
    | Some v => k v log
    | None => (Raise (KeyError key), log)
    end.
Proof.
  unfold mbind, M_bind, liftR, opts_subscript.
  destruct (opts !! key); reflexivity.
Qed.

(** One [opts[key]] of [__init__]: split on whether the key is there. *)
Ltac read_option :=
  rewrite bind_opts_subscript;
  match goal with
  | |- context [match ?opts !! ?k with Some _ => _ | None => _ end] =>
      destruct (opts !! k) eqn:?
  end.

(** The branch of a missing option, when all required options are there. *)
Ltac option_is_there Hall :=
  exfalso;
  match goal with
  | H : _ !! ?k = None |- _ =>
      destruct (Hall k) as [? ?];
      [unfold required_options; repeat constructor | congruence]
  end.

(** What a successful construction has done: read the seven options,
    obtained the token and put it into the headers of a fresh session. *)
Lemma __init___ok (rt : runtime) (opts : gmap string string)
    (log0 log1 : list Request) (self : ADFSource) :
  __init__ rt opts log0 = (Ok self, log1) →
  (∀ k, k ∈ required_options → is_Some (opts !! k)) ∧
  _get_azure_token rt (tenant self) (cid self) (csec self) log0
    = (Ok (token self), log1) ∧
  headers (sess self) =
    <["Authorization" := "Bearer " +:+ py_str rt (token self)]>
      (default_headers rt) ∧
  api_version self = "2018-06-01".
Proof.
  unfold __init__.
  repeat (read_option; [|discriminate]).
  unfold mbind at 1, M_bind.
  destruct (_get_azure_token rt _ _ _ log0) as [[tok|e] log'] eqn:Htok;
    [|discriminate].
  intros H. injection H as <- <-. cbn. repeat split; try assumption.
  intros k Hk. unfold required_options in Hk.
  repeat (apply elem_of_cons in Hk as [->|Hk]; [eauto|]).
  apply elem_of_nil in Hk. destruct Hk.
Qed.

(** C5. When a required option is missing from the configuration,
    construction fails on the lookup of a missing option (the [KeyError]
    of the subscript, the spec's ConfigurationError), and the request log
    is as it was: no network call has been made. *)
Theorem missing_option_fails_before_network (rt : runtime)
    (opts : gmap string string) (log : list Request) (k : string) :
  k ∈ required_options → opts !! k = None →
  ∃ k', k' ∈ required_options ∧ opts !! k' = None ∧
        __init__ rt opts log = (Raise (KeyError k'), log).
Proof.
  intros Hk Hnone. unfold __init__.
  repeat (read_option;
          [|eexists; split; [|split; [|reflexivity]];
            [unfold required_options; repeat constructor | assumption]]).
  exfalso. unfold required_options in Hk.
  repeat (apply elem_of_cons in Hk as [->|Hk]; [congruence|]).
  apply elem_of_nil in Hk. exact Hk.
Qed.

(** C6 (as the code has it). A token-endpoint response with a 4xx or 5xx
    status makes token acquisition fail with the [HTTPError] that carries
    the response, and so its status code, and construction fails with it;
    a listing response with such a status makes the extraction fail
    likewise.  In each case one request has been sent and the error
    reaches the caller. *)
Theorem http_error_propagates_without_retry (rt : runtime) :
  (∀ tenant_id client_id client_secret log r,
     net rt log (token_request rt tenant_id client_id client_secret)
       = Responds r →
     (400 ≤ status_code r < 600)%Z →
     _get_azure_token rt tenant_id client_id client_secret log =
       (Raise (HTTPError r),
        log ++ [token_request rt tenant_id client_id client_secret])) ∧
  (∀ opts tenant_id client_id client_secret log r,
     (∀ k, k ∈ required_options → is_Some (opts !! k)) →
     opts !! "tenant_id" = Some tenant_id →
     opts !! "client_id" = Some client_id →
     opts !! "client_secret" = Some client_secret →
     net rt log (token_request rt tenant_id client_id client_secret)
       = Responds r →
     (400 ≤ status_code r < 600)%Z →
     __init__ rt opts log =
       (Raise (HTTPError r),
        log ++ [token_request rt tenant_id client_id client_secret])) ∧
  (∀ self log r,
     net rt log (_arm_request rt self (pipelines_path self) None)
       = Responds r →
     (400 ≤ status_code r < 600)%Z →
     next_record rt self log =
       (Abort (HTTPError r),
        log ++ [_arm_request rt self (pipelines_path self) None])).
Proof.
  assert (Htoken : ∀ t c s log r,
            net rt log (token_request rt t c s) = Responds r →
            (400 ≤ status_code r < 600)%Z →
            _get_azure_token rt t c s log =
              (Raise (HTTPError r), log ++ [token_request rt t c s])).
  { intros t c s log r Hnet Hst.
    rewrite _get_azure_token_run, Hnet, (raise_for_status_error r Hst).
    reflexivity. }
  split; [exact Htoken|]. split.
  - intros opts t c s log r Hall Ht Hc Hs Hnet Hst. unfold __init__.
    do 3 (read_option; [|option_is_there Hall]).
    rewrite bind_opts_subscript, Ht, bind_opts_subscript, Hc,
      bind_opts_subscript, Hs.
    read_option; [|option_is_there Hall].
    unfold mbind at 1, M_bind.
    rewrite (Htoken t c s log r Hnet Hst). reflexivity.
  - intros self log r Hnet Hst. unfold next_record.
    rewrite _list_pipelines_run, Hnet, (raise_for_status_error r Hst).
    reflexivity.
Qed.

Lemma _arm_params_extra (self : ADFSource) (extra : gmap string pyval)
    (k : string) (v : pyval) :
  extra !! k = Some v → _arm_params self (Some extra) !! k = Some v.
Proof.
  intros Hk. unfold _arm_params.
  destruct (truthy (PDict extra)) eqn:Ht.
  - apply lookup_union_Some_l, Hk.
  - cbn in Ht. apply negb_false_iff, Nat.eqb_eq, map_size_empty_iff in Ht.
    subst extra. rewrite lookup_empty in Hk. discriminate.
Qed.

Lemma _arm_params_api_version (self : ADFSource)
    (params : option (gmap string pyval)) :
  (∀ extra, params = Some extra → extra !! "api-version" = None) →
  _arm_params self params !! "api-version" = Some (PStr (api_version self)).
Proof.
  intros H. unfold _arm_params. destruct params as [extra|].
  - destruct (truthy (PDict extra)).
    + rewrite lookup_union_r by (apply H; reflexivity).
      apply lookup_singleton_eq.
    + apply lookup_singleton_eq.
  - apply lookup_singleton_eq.
Qed.

(** C8 (as the code has it). On an extractor built by [__init__], every
    call of the API client sends one GET that carries the session's
    [Authorization: Bearer <token>] header, put there once at
    construction, and all the extra query parameters; it carries
    [api-version = "2018-06-01"] whenever the extra parameters do not
    themselves give an [api-version]. *)
Theorem _arm_sends_api_version_and_bearer (rt : runtime)
    (opts : gmap string string) (log0 log1 : list Request)
    (self : ADFSource) :
  __init__ rt opts log0 = (Ok self, log1) →
  ∀ path params log,
    let req := _arm_request rt self path params in
    (∃ res, _arm rt self path params log = (res, log ++ [req])) ∧
    req_method req = GET ∧
    req_headers req !! "Authorization"
      = Some ("Bearer " +:+ py_str rt (token self)) ∧
    (∀ extra k v, params = Some extra → extra !! k = Some v →
                  req_params req !! k = Some v) ∧
    ((∀ extra, params = Some extra → extra !! "api-version" = None) →
     req_params req !! "api-version" = Some (PStr "2018-06-01")).
Proof.
  intros Hinit path params log req.
  destruct (__init___ok rt opts log0 log1 self Hinit)
    as (_ & _ & Hhdr & Hver).
  split; [rewrite _arm_run; eauto|]. split; [reflexivity|].
  subst req. cbn [_arm_request req_headers req_params]. split.
  - rewrite Hhdr. apply lookup_insert_eq.
  - split.
    + intros extra k v -> Hk. apply _arm_params_extra, Hk.
    + intros H. rewrite <- Hver. apply _arm_params_api_version, H.
Qed.

(** ** The properties at the example data *)

(** The end-to-end scenario: one record, as the specification expects. *)
Example end_to_end_scenario :
  ∃ log,
    __init__ scenario_runtime scenario_opts [] = (Ok scenario_self, log) ∧
    (next_record scenario_runtime scenario_self log).1 =
      Yield (CreatePipelineRequest.mk
               (PStr "p1") (PStr "p1") (PStr "d")
               (EntityReference.mk None "pipelineService" "svc")
               [Task.mk (PStr "copyA") (PStr "Copy") (Some [PStr "BlobSink"])]
               (PStr "/sub/.../p1"))
            Done.
Proof. eexists. split; vm_compute; reflexivity. Qed.

Lemma next_record_one_record_per_pipeline_witness :
  ∃ g, next_record scenario_runtime scenario_self [] = (g, [scenario_listing]) ∧
       ending g = None ∧
       Forall2 (record_for scenario_self) [pipeline_p1] (yielded g).
Proof.
  apply (next_record_one_record_per_pipeline
           scenario_runtime scenario_self [] [scenario_listing] [pipeline_p1]);
    vm_compute; reflexivity.
Defined.

Lemma downstream_tasks_from_copy_sink_witness :
  ∃ t, _build_tasks_body (PDict copyA_fields) = Ok t ∧
       Task.downstreamTasks t = Some [PStr "BlobSink"].
Proof.
  destruct (proj2 (downstream_tasks_from_copy_sink copyA_fields))
    as (t & Ht & Hsink & _); [reflexivity | reflexivity |].
  exists t. split; [exact Ht|]. apply Hsink; reflexivity.
Defined.

Lemma task_name_and_type_fallback_witness :
  ∃ t, _build_tasks_body (PDict ∅) = Ok t ∧
       Task.name t = PStr "activity" ∧ Task.taskType t = PStr "Activity".
Proof.
  destruct (task_name_and_type_fallback ∅) as (t & Ht & Hn & Hty & _);
    [reflexivity|].
  exists t. split; [exact Ht|].
  split; [apply Hn | apply Hty]; reflexivity.
Defined.

Lemma next_record_preserves_order_witness :
  ∃ g, next_record two_pipelines_runtime scenario_self []
         = (g, [scenario_listing]) ∧
       ending g = None ∧
       Forall2 (λ p r, next_record_body scenario_self p = Ok r ∧ tasks_for p r)
               [pipeline_A; pipeline_B] (yielded g).
Proof.
  apply (next_record_preserves_order
           two_pipelines_runtime scenario_self [] [scenario_listing]
           [pipeline_A; pipeline_B]);
    vm_compute; reflexivity.
Defined.

Lemma missing_option_fails_before_network_witness :
  ∃ k', k' ∈ required_options ∧
        delete "tenant_id" scenario_opts !! k' = None ∧
        __init__ scenario_runtime (delete "tenant_id" scenario_opts) []
          = (Raise (KeyError k'), []).
Proof.
  apply (missing_option_fails_before_network
           scenario_runtime (delete "tenant_id" scenario_opts) [] "tenant_id").
  - unfold required_options. repeat constructor.
  - vm_compute. reflexivity.
Defined.

Lemma http_error_propagates_without_retry_witness :
  _get_azure_token refusing_runtime "t1" "c1" "secret" [] =
    (Raise (HTTPError (mkResponse 401 None)),
     [token_request refusing_runtime "t1" "c1" "secret"]) ∧
  __init__ refusing_runtime scenario_opts [] =
    (Raise (HTTPError (mkResponse 401 None)),
     [token_request refusing_runtime "t1" "c1" "secret"]) ∧
  next_record refusing_runtime scenario_self [] =
    (Abort (HTTPError (mkResponse 403 None)),
     [_arm_request refusing_runtime scenario_self
                   (pipelines_path scenario_self) None]).
Proof.
  destruct (http_error_propagates_without_retry refusing_runtime)
    as (Htoken & Hinit & Hlisting).
  split; [|split].
  - apply (Htoken "t1" "c1" "secret" []); [reflexivity | cbn; lia].
  - apply (Hinit scenario_opts "t1" "c1" "secret" []);
      try (vm_compute; reflexivity); [|cbn; lia].
    intros k Hk. unfold required_options in Hk.
    repeat (apply elem_of_cons in Hk as [->|Hk];
            [vm_compute; eexists; reflexivity|]).
    apply elem_of_nil in Hk. destruct Hk.
  - apply (Hlisting scenario_self []); [reflexivity | cbn; lia].
Defined.

(** C6, refuted as stated: status 300 is not a 2xx status, yet the token
    is returned and the listing is processed, with no error. *)
Lemma status_300_is_not_rejected :
  net status_300_runtime []
      (token_request status_300_runtime "t1" "c1" "secret")
    = Responds (mkResponse 300 (Some token_body)) ∧
  ¬ (200 ≤ status_code (mkResponse 300 (Some token_body)) < 300)%Z ∧
  _get_azure_token status_300_runtime "t1" "c1" "secret" [] =
    (Ok (PStr "tok"), [token_request status_300_runtime "t1" "c1" "secret"]) ∧
  ending (next_record status_300_runtime scenario_self []).1 = None.
Proof.
  split; [reflexivity|]. split; [cbn; lia|].
  split; vm_compute; reflexivity.
Qed.

(** C7, at a failing input: a ["Copy"] activity with a null
    [typeProperties] makes the task-building step raise, while the same
    activity with a null [sink] gets its Task. *)
Theorem _build_tasks_raises_on_null_typeProperties :
  _build_tasks (PList [null_typeProperties_activity])
    = Raise (AttributeError "get") ∧
  _build_tasks (PList [null_sink_activity])
    = Ok [Task.mk (PStr "a") (PStr "Copy") None].
Proof. split; vm_compute; reflexivity. Qed.

Lemma _arm_sends_api_version_and_bearer_witness :
  let req := _arm_request scenario_runtime scenario_self
                          (pipelines_path scenario_self) (Some top_5) in
  req_headers req !! "Authorization" = Some "Bearer tok" ∧
  req_params req !! "$top" = Some (PInt 5) ∧
  req_params req !! "api-version" = Some (PStr "2018-06-01").
Proof.
  destruct (_arm_sends_api_version_and_bearer
              scenario_runtime scenario_opts []
              [token_request scenario_runtime "t1" "c1" "secret"]
              scenario_self)
    with (path := pipelines_path scenario_self) (params := Some top_5)
         (log := @nil Request)
    as (_ & _ & Hauth & Hextra & Hversion); [vm_compute; reflexivity|].
  split; [exact Hauth|]. split.
  - apply (Hextra top_5); reflexivity.
  - apply Hversion. intros extra [= <-]. reflexivity.
Defined.

(** C8, refuted as stated: extra parameters that hold an [api-version]
    replace the fixed one in the request. *)
Lemma own_api_version_replaces_the_fixed_one :
  __init__ scenario_runtime scenario_opts []
    = (Ok scenario_self, [token_request scenario_runtime "t1" "c1" "secret"]) ∧
  ∃ res req,
    _arm scenario_runtime scenario_self (pipelines_path scenario_self)
         (Some own_api_version) [] = (res, [req]) ∧
    req_params req !! "api-version" = Some (PStr "2015-10-01") ∧
    req_params req !! "api-version" ≠ Some (PStr "2018-06-01").
Proof.
  split; [vm_compute; reflexivity|].
  eexists _, _. split; [rewrite _arm_run; reflexivity|].
  split; [vm_compute; reflexivity|]. vm_compute. discriminate.
Qed.

Lemma _list_pipelines_first_page_witness :
  ∃ v, _list_pipelines paged_runtime scenario_self [] =
         (Ok v, [_arm_request paged_runtime scenario_self
                              (pipelines_path scenario_self) None]) ∧
       v = PList [pipeline_p1].
Proof.
  destruct (_list_pipelines_first_page paged_runtime scenario_self [] _ _
              eq_refl eq_refl eq_refl) as (v & Hv & Hvalue & _).
  exists v. split; [exact Hv|]. apply Hvalue. vm_compute. reflexivity.
Defined.

Lemma no_activities_empty_tasks_witness :
  ∃ r, next_record_loop scenario_self [PDict null_activities_fields]
         = Yield r Done ∧
       CreatePipelineRequest.tasks r = [] ∧
       record_for scenario_self (PDict null_activities_fields) r.
Proof.
  apply (no_activities_empty_tasks scenario_self null_activities_fields
           {[ "activities" := PNone ]} []).
  - vm_compute. reflexivity.
  - right; left. vm_compute. reflexivity.
Defined.

(** ** More on the activity flattener *)

Lemma is_copy_type (d : gmap string pyval) :
  is_copy d = true → d !! "type" = Some (PStr "Copy").
Proof.
  unfold is_copy. destruct (d !! "type") as [[]|]; try discriminate.
  cbn. intros H. apply bool_decide_eq_true in H. subst. reflexivity.
Qed.

Lemma _build_tasks_body_not_ok (act : pyval) :
  activity_ok act = false →
  _build_tasks_body act = Raise (AttributeError "get").
Proof.
  destruct act as [| | | | | |d]; try reflexivity.
  unfold activity_ok, _build_tasks_body. cbn [py_get mbind result_bind].
  rewrite py_eq_str_type. destruct (is_copy d); [|discriminate].
  destruct (d !! "typeProperties") as [tp|]; [|discriminate].
  cbn [default from_option id].
  destruct tp as [| | | | | |tpd]; try reflexivity.
  cbn [py_get mbind result_bind].
  destruct (tpd !! "sink") as [s|]; [|discriminate].
  cbn [default from_option id]. intros Hs. unfold py_or.
  destruct s; try discriminate Hs;
    apply negb_false_iff in Hs; rewrite Hs; reflexivity.
Qed.

Lemma _build_tasks_body_Ok_ok (act : pyval) (t : Task.t) :
  _build_tasks_body act = Ok t → activity_ok act = true.
Proof.
  intros H. destruct (activity_ok act) eqn:Hok; [reflexivity|].
  rewrite (_build_tasks_body_not_ok act Hok) in H. discriminate.
Qed.

(** X1. The loop body raises exactly on the descriptors that are not
    [activity_ok] (not an object, or a ["Copy"] activity whose
    [typeProperties] is present and not an object or whose [sink] is a
    non-empty non-object), and what it raises is always the
    [AttributeError] of a [.get] on a value that has none. *)
Theorem _build_tasks_body_raises_iff (act : pyval) :
  (_build_tasks_body act = Raise (AttributeError "get")
   ↔ activity_ok act = false) ∧
  (∀ e, _build_tasks_body act = Raise e → e = AttributeError "get").
Proof.
  split; [split|].
  - intros H. destruct (activity_ok act) eqn:Hok; [|reflexivity].
    destruct (activity_ok_builds act Hok) as [t Ht]. congruence.
  - apply _build_tasks_body_not_ok.
  - intros e H. destruct (activity_ok act) eqn:Hok.
    + destruct (activity_ok_builds act Hok) as [t Ht]. congruence.
    + rewrite (_build_tasks_body_not_ok act Hok) in H. congruence.
Qed.

Lemma py_or_list (l : list pyval) : py_or (PList l) (PList []) = PList l.
Proof. destruct l; reflexivity. Qed.

Lemma _build_tasks_loop_stops (pre post : list pyval) (a : pyval)
    (e : exn) (acc : list Task.t) :
  forallb activity_ok pre = true → _build_tasks_body a = Raise e →
  _build_tasks_loop (pre ++ a :: post) acc = Raise e.
Proof.
  intros Hpre Ha. revert acc.
  induction pre as [|p pre IH]; intros acc; cbn.
  - rewrite Ha. reflexivity.
  - cbn in Hpre. apply andb_true_iff in Hpre as [Hp Hpre].
    destruct (activity_ok_builds p Hp) as [t ->]. cbn. apply IH, Hpre.
Qed.

Lemma _build_tasks_loop_inv (acts : list pyval) (acc res : list Task.t) :
  _build_tasks_loop acts acc = Ok res →
  ∃ ts, res = acc ++ ts ∧
        Forall2 (λ a t, _build_tasks_body a = Ok t) acts ts.
Proof.
  revert acc. induction acts as [|a acts IH]; intros acc; cbn.
  - intros H. injection H as <-. exists []. rewrite app_nil_r.
    split; [reflexivity|constructor].
  - destruct (_build_tasks_body a) as [t|e] eqn:Ha; [|discriminate].
    cbn. intros H. destruct (IH _ H) as (ts & -> & Hts).
    exists (t :: ts). rewrite <- app_assoc.
    split; [reflexivity|]. constructor; assumption.
Qed.

(** X2. On a list of activity descriptors the flattener is all or
    nothing: when a descriptor fails after any number of good ones, the
    call raises that descriptor's exception and returns no tasks. *)
Theorem _build_tasks_stops_at_first_failure (pre post : list pyval)
    (a : pyval) (e : exn) :
  forallb activity_ok pre = true → _build_tasks_body a = Raise e →
  _build_tasks (PList (pre ++ a :: post)) = Raise e.
Proof.
  intros Hpre Ha. unfold _build_tasks. rewrite py_or_list.
  cbn [py_iter mbind result_bind].
  apply _build_tasks_loop_stops; assumption.
Qed.

Lemma py_iter_truthy_str (s : string) :
  truthy (PStr s) = true →
  ∃ c rest, py_iter (PStr s) = Ok (PStr c :: rest).
Proof.
  destruct s as [|c s]; [discriminate|]. intros _. cbn. eauto.
Qed.

Lemma py_iter_truthy_dict (d : gmap string pyval) :
  truthy (PDict d) = true →
  ∃ k rest, py_iter (PDict d) = Ok (PStr k :: rest).
Proof.
  cbn [truthy py_iter]. intros Hd.
  destruct (map_to_list d) as [|[k v] l] eqn:Hl.
  - apply map_to_list_empty_iff in Hl. subst d.
    rewrite map_size_empty in Hd. discriminate.
  - cbn. eauto.
Qed.

(** X3. What the flattener does with an [activities] value that is not a
    list: a falsy one (null, [0], [""], [{}], [False]) gives no tasks, a
    non-zero number or [True] raises [TypeError], and a non-empty string
    or object raises [AttributeError]. *)
Theorem _build_tasks_not_a_list (v : pyval) :
  (truthy v = false → _build_tasks v = Ok []) ∧
  (truthy v = true → not_iterable v = true →
   _build_tasks v = Raise TypeError) ∧
  (truthy v = true → (∃ s, v = PStr s) ∨ (∃ d, v = PDict d) →
   _build_tasks v = Raise (AttributeError "get")).
Proof.
  unfold _build_tasks, py_or. split; [|split].
  - intros ->. reflexivity.
  - intros -> Hv. destruct v; try discriminate; reflexivity.
  - intros Ht [[s ->] | [d ->]]; rewrite Ht.
    + destruct (py_iter_truthy_str s Ht) as (c & rest & ->). reflexivity.
    + destruct (py_iter_truthy_dict d Ht) as (k & rest & ->). reflexivity.
Qed.

Lemma _build_tasks_Ok_activities_ok (v : pyval) (ts : list Task.t) :
  _build_tasks v = Ok ts → activities_ok v = true.
Proof.
  intros H. unfold activities_ok, activity_list. unfold _build_tasks in H.
  destruct (py_or v (PList [])) as [| | | |s|l|d] eqn:Hv; try discriminate.
  - assert (Ht : truthy (PStr s) = true).
    { unfold py_or in Hv. destruct (truthy v) eqn:E; congruence. }
    destruct (py_iter_truthy_str s Ht) as (c & rest & Hi).
    rewrite Hi in H. discriminate.
  - cbn [py_iter mbind result_bind] in H.
    apply _build_tasks_loop_inv in H as (ts' & _ & Hall).
    clear Hv. induction Hall as [|a t l k Ha _ IH]; [reflexivity|].
    cbn. rewrite (_build_tasks_body_Ok_ok a t Ha). exact IH.
  - assert (Ht : truthy (PDict d) = true).
    { unfold py_or in Hv. destruct (truthy v) eqn:E; congruence. }
    destruct (py_iter_truthy_dict d Ht) as (k & rest & Hi).
    rewrite Hi in H. discriminate.
Qed.

Lemma _build_tasks_loop_raises (acts : list pyval) (acc : list Task.t)
    (e : exn) :
  _build_tasks_loop acts acc = Raise e → e = AttributeError "get".
Proof.
  revert acc. induction acts as [|a acts IH]; intros acc; cbn;
    [discriminate|].
  destruct (_build_tasks_body a) as [t|e'] eqn:Ha; cbn.
  - apply IH.
  - intros H. injection H as <-.
    destruct (activity_ok a) eqn:Hok.
    + destruct (activity_ok_builds a Hok) as [t Ht]. congruence.
    + rewrite (_build_tasks_body_not_ok a Hok) in Ha. congruence.
Qed.

Lemma _build_tasks_raises (v : pyval) (e : exn) :
  _build_tasks v = Raise e → e = AttributeError "get" ∨ e = TypeError.
Proof.
  unfold _build_tasks.
  destruct (py_iter (py_or v (PList []))) as [acts|e'] eqn:Hi;
    cbn [mbind result_bind].
  - intros H. left. exact (_build_tasks_loop_raises acts [] e H).
  - intros H. injection H as <-. right.
    destruct (py_or v (PList [])); cbn in Hi; congruence.
Qed.

(** X4. The flattener returns a task list exactly for the [activities]
    values that are [activities_ok]: falsy, or a list of descriptors each
    of which is [activity_ok].  When it does not, it raises
    [AttributeError] or [TypeError] and nothing else. *)
Theorem _build_tasks_succeeds_iff (v : pyval) :
  ((∃ ts, _build_tasks v = Ok ts) ↔ activities_ok v = true) ∧
  (∀ e, _build_tasks v = Raise e →
        e = AttributeError "get" ∨ e = TypeError).
Proof.
  split; [split|].
  - intros [ts H]. exact (_build_tasks_Ok_activities_ok v ts H).
  - intros H. destruct (_build_tasks_ok v H) as (l & ts & _ & Hts & _).
    eauto.
  - apply _build_tasks_raises.
Qed.

Lemma field_or_truthy (o : option pyval) (fb : pyval) :
  truthy fb = true → truthy (field_or o fb) = true.
Proof.
  intros Hfb. destruct o as [v|]; [|exact Hfb].
  cbn. destruct (truthy v) eqn:Hv; assumption.
Qed.

Lemma _build_tasks_body_well_formed (act : pyval) (t : Task.t) :
  _build_tasks_body act = Ok t → task_well_formed t.
Proof.
  intros H. pose proof (_build_tasks_body_Ok_ok act t H) as Hok.
  destruct act as [| | | | | |d]; try discriminate.
  rewrite (_build_tasks_body_dict d Hok) in H. injection H as <-.
  unfold task_well_formed. cbn [Task.name Task.taskType Task.downstreamTasks].
  split; [apply field_or_truthy; reflexivity|].
  split; [apply field_or_truthy; reflexivity|].
  destruct (is_copy d) eqn:Hc; [|left; reflexivity].
  destruct (sink_type d) as [v|]; [|left; reflexivity].
  destruct (truthy v) eqn:Hv; [|left; reflexivity].
  right. exists v. rewrite (is_copy_type d Hc).
  split; [reflexivity|]. split; [exact Hv | reflexivity].
Qed.

Lemma _build_tasks_well_formed (v : pyval) (ts : list Task.t) :
  _build_tasks v = Ok ts → Forall task_well_formed ts.
Proof.
  unfold _build_tasks.
  destruct (py_iter (py_or v (PList []))) as [acts|e]; [|discriminate].
  cbn [mbind result_bind]. intros H.
  apply _build_tasks_loop_inv in H as (ts' & -> & Hall). cbn.
  induction Hall as [|a t l k Ha _ IH]; constructor;
    [exact (_build_tasks_body_well_formed a t Ha) | exact IH].
Qed.

(** X5. Every Task the flattener returns, for any input, has a name and
    a task type that are not empty; its downstream list is either absent
    or holds exactly one non-empty entry, and then the task type is
    ["Copy"].  The list is never empty and never longer than one. *)
Theorem _build_tasks_tasks_well_formed (v : pyval) (ts : list Task.t) :
  _build_tasks v = Ok ts →
  Forall task_well_formed ts ∧
  (∀ t, t ∈ ts → Task.downstreamTasks t ≠ Some []).
Proof.
  intros H. pose proof (_build_tasks_well_formed v ts H) as Hwf.
  split; [exact Hwf|]. intros t Ht Hd.
  rewrite Forall_forall in Hwf. destruct (Hwf t Ht) as (_ & _ & [Hn|Hs]).
  - congruence.
  - destruct Hs as (x & Hx & _). congruence.
Qed.

(** ** More on the extraction driver *)

Lemma next_record_body_inv (self : ADFSource) (p : pyval)
    (r : CreatePipelineRequest.t) :
  next_record_body self p = Ok r →
  ∃ d pr ts,
    p = PDict d ∧ pipeline_properties d = Some pr ∧
    _build_tasks (default (PList []) (pr !! "activities")) = Ok ts ∧
    r = CreatePipelineRequest.mk
          (default PNone (d !! "name")) (default PNone (d !! "name"))
          (default PNone (pr !! "description"))
          (EntityReference.mk None "pipelineService" (service_name self))
          ts (py_or (default PNone (d !! "id")) (PStr "")).
Proof.
  destruct p as [| | | | | |d]; try discriminate.
  unfold next_record_body, pipeline_properties.
  cbn [py_get mbind result_bind].
  destruct (d !! "properties") as [props|] eqn:Hp;
    cbn [default from_option id].
  - destruct props as [| | | | | |pr]; try discriminate.
    cbn [py_get mbind result_bind].
    destruct (_build_tasks _) as [ts|e] eqn:Hts; [|discriminate].
    cbn [mbind result_bind]. intros H. injection H as <-.
    exists d, pr, ts. rewrite Hp. repeat split; assumption.
  - rewrite !py_get_empty. cbn [mbind result_bind].
    destruct (_build_tasks _) as [ts|e] eqn:Hts; [|discriminate].
    cbn [mbind result_bind]. intros H. injection H as <-.
    exists d, ∅, ts. rewrite Hp, !lookup_empty.
    repeat split; assumption.
Qed.

Lemma next_record_body_Ok_ok (self : ADFSource) (p : pyval)
    (r : CreatePipelineRequest.t) :
  next_record_body self p = Ok r → pipeline_ok p = true.
Proof.
  intros H. apply next_record_body_inv in H
    as (d & pr & ts & -> & Hpr & Hts & _).
  unfold pipeline_ok. cbn [pipeline_activities]. rewrite Hpr.
  cbn [mbind option_bind].
  exact (_build_tasks_Ok_activities_ok _ ts Hts).
Qed.

Lemma next_record_body_raises (self : ADFSource) (p : pyval) (e : exn) :
  next_record_body self p = Raise e →
  e = AttributeError "get" ∨ e = TypeError.
Proof.
  destruct p as [| | | | | |d];
    try (intros H; injection H as <-; left; reflexivity).
  unfold next_record_body. cbn [py_get mbind result_bind].
  destruct (default (PDict ∅) (d !! "properties")) as [| | | | | |pr];
    try (intros H; injection H as <-; left; reflexivity).
  cbn [py_get mbind result_bind].
  destruct (_build_tasks _) as [ts|e'] eqn:Hts; cbn [mbind result_bind].
  - discriminate.
  - intros H. injection H as <-. exact (_build_tasks_raises _ _ Hts).
Qed.

(** X6. The driver yields a record for a pipeline descriptor exactly
    when the descriptor is [pipeline_ok]: an object whose [properties] is
    absent or an object and whose activities the flattener accepts.  For
    any other descriptor the loop body raises [AttributeError] or
    [TypeError], and nothing else. *)
Theorem next_record_body_succeeds_iff (self : ADFSource) (p : pyval) :
  ((∃ r, next_record_body self p = Ok r) ↔ pipeline_ok p = true) ∧
  (∀ e, next_record_body self p = Raise e →
        e = AttributeError "get" ∨ e = TypeError).
Proof.
  split; [split|].
  - intros [r H]. exact (next_record_body_Ok_ok self p r H).
  - intros H. destruct (next_record_body_ok self p H) as (r & Hr & _).
    eauto.
  - apply next_record_body_raises.
Qed.

Lemma next_record_loop_stops (self : ADFSource) (pre post : list pyval)
    (bad : pyval) (e : exn) :
  forallb pipeline_ok pre = true → next_record_body self bad = Raise e →
  ending (next_record_loop self (pre ++ bad :: post)) = Some e ∧
  Forall2 (λ p r, next_record_body self p = Ok r)
          pre (yielded (next_record_loop self (pre ++ bad :: post))).
Proof.
  intros Hpre Hbad. induction pre as [|p pre IH]; cbn.
  - rewrite Hbad. split; [reflexivity|constructor].
  - cbn in Hpre. apply andb_true_iff in Hpre as [Hp Hpre].
    destruct (next_record_body_ok self p Hp) as (r & Hr & _).
    rewrite Hr. cbn. destruct (IH Hpre) as [He Hy].
    split; [exact He|]. constructor; assumption.
Qed.

(** X7. A descriptor the driver cannot process does not undo what came
    before it: the generator yields the records of all the descriptors
    listed before the first failing one, in order, then raises that
    descriptor's exception; the descriptors after it are never
    processed. *)
Theorem next_record_yields_until_first_failure (rt : runtime)
    (self : ADFSource) (log log' : list Request)
    (pre post : list pyval) (bad : pyval) (e : exn) :
  _list_pipelines rt self log = (Ok (PList (pre ++ bad :: post)), log') →
  forallb pipeline_ok pre = true →
  next_record_body self bad = Raise e →
  ∃ g, next_record rt self log = (g, log') ∧ ending g = Some e ∧
       Forall2 (λ p r, next_record_body self p = Ok r) pre (yielded g).
Proof.
  intros Hlist Hpre Hbad.
  exists (next_record_loop self (pre ++ bad :: post)).
  split; [apply next_record_listed, Hlist|].
  apply next_record_loop_stops; assumption.
Qed.

Lemma next_record_body_well_formed (self : ADFSource) (p : pyval)
    (r : CreatePipelineRequest.t) :
  next_record_body self p = Ok r → record_well_formed self r.
Proof.
  intros H. apply next_record_body_inv in H
    as (d & pr & ts & _ & _ & Hts & ->).
  unfold record_well_formed. cbn. repeat split.
  - unfold py_or. destruct (truthy (default PNone (d !! "id"))) eqn:Hid;
      [right; exact Hid | left; reflexivity].
  - exact (_build_tasks_well_formed _ ts Hts).
Qed.

Lemma next_record_loop_well_formed (self : ADFSource) (ps : list pyval) :
  Forall (record_well_formed self) (yielded (next_record_loop self ps)).
Proof.
  induction ps as [|p ps IH]; cbn; [constructor|].
  destruct (next_record_body self p) as [r|e] eqn:Hr; cbn;
    [|constructor].
  constructor; [exact (next_record_body_well_formed self p r Hr) | exact IH].
Qed.

(** X8. Whatever the listing endpoint answers, every record the
    generator yields has displayName equal to name, the service reference
    [pipelineService] with the configured name and no id, a sourceUrl
    that is the empty string or a non-empty value (never null), and
    well-formed tasks. *)
Theorem next_record_records_well_formed (rt : runtime) (self : ADFSource)
    (log : list Request) :
  Forall (record_well_formed self) (yielded (next_record rt self log).1).
Proof.
  unfold next_record.
  destruct (_list_pipelines rt self log) as [[v|e] log']; cbn;
    [|constructor].
  destruct (py_iter v) as [ps|e]; cbn; [|constructor].
  apply next_record_loop_well_formed.
Qed.

(** X9. The listing step has no guard for a [value] that cannot be
    iterated: when the response body holds [value] as null, a boolean or
    a number, the generator raises [TypeError] without yielding
    anything, after its one request. *)
Theorem next_record_value_not_iterable (rt : runtime) (self : ADFSource)
    (log : list Request) (r : Response) (body : gmap string pyval)
    (v : pyval) :
  net rt log (_arm_request rt self (pipelines_path self) None) = Responds r →
  raise_for_status r = Ok tt →
  json r = Some (PDict body) →
  body !! "value" = Some v →
  not_iterable v = true →
  next_record rt self log =
    (Abort TypeError,
     log ++ [_arm_request rt self (pipelines_path self) None]).
Proof.
  intros Hnet Hst Hjson Hv Hni. unfold next_record.
  rewrite _list_pipelines_run, Hnet, Hst. unfold response_json.
  rewrite Hjson. cbn [mbind result_bind py_get]. rewrite Hv.
  cbn [default from_option id]. destruct v; try discriminate; reflexivity.
Qed.

(** ** More on the HTTP calls *)

(** X10. A call that gets no answer (timeout, connection failure) ends
    token acquisition, and the extraction pass, with the transport
    exception after that one attempt: nothing is retried and no record is
    yielded. *)
Theorem transport_failure_propagates (rt : runtime) :
  (∀ tenant_id client_id client_secret log t,
     net rt log (token_request rt tenant_id client_id client_secret)
       = Fails t →
     _get_azure_token rt tenant_id client_id client_secret log =
       (Raise (RequestException t),
        log ++ [token_request rt tenant_id client_id client_secret])) ∧
  (∀ self log t,
     net rt log (_arm_request rt self (pipelines_path self) None)
       = Fails t →
     next_record rt self log =
       (Abort (RequestException t),
        log ++ [_arm_request rt self (pipelines_path self) None])).
Proof.
  split.
  - intros t c s log f Hnet. rewrite _get_azure_token_run, Hnet.
    reflexivity.
  - intros self log f Hnet. unfold next_record.
    rewrite _list_pipelines_run, Hnet. reflexivity.
Qed.

(** X11. A token response that passes the status check but has an
    unusable body fails token acquisition: [JSONDecodeError] when the
    body is not JSON, [KeyError] when it is an object without
    [access_token], [TypeError] when it is JSON but not an object.  When
    [access_token] is there its value is returned as it is. *)
Theorem _get_azure_token_body (rt : runtime)
    (tenant_id client_id client_secret : string)
    (log : list Request) (r : Response) :
  net rt log (token_request rt tenant_id client_id client_secret)
    = Responds r →
  raise_for_status r = Ok tt →
  (_get_azure_token rt tenant_id client_id client_secret log).1 =
    match json r with
    | None => Raise JSONDecodeError
    | Some (PDict body) =>
        match body !! "access_token" with
        | Some tok => Ok tok
        | None => Raise (KeyError "access_token")
        end
    | Some _ => Raise TypeError
    end.
Proof.
  intros Hnet Hst. rewrite _get_azure_token_run, Hnet, Hst.
  unfold response_json. cbn [fst mbind result_bind].
  destruct (json r) as [[]|]; reflexivity.
Qed.

(** X12. A listing response that passes the status check but has an
    unusable body ends the extraction pass before any record:
    [JSONDecodeError] when the body is not JSON, [AttributeError] when it
    is JSON but not an object. *)
Theorem next_record_listing_body (rt : runtime) (self : ADFSource)
    (log : list Request) (r : Response) :
  net rt log (_arm_request rt self (pipelines_path self) None) = Responds r →
  raise_for_status r = Ok tt →
  (json r = None →
   (next_record rt self log).1 = Abort JSONDecodeError) ∧
  (∀ v, json r = Some v → (∀ body, v ≠ PDict body) →
        (next_record rt self log).1 = Abort (AttributeError "get")).
Proof.
  intros Hnet Hst. unfold next_record.
  rewrite _list_pipelines_run, Hnet, Hst. unfold response_json. split.
  - intros ->. reflexivity.
  - intros v -> Hv. destruct v; try reflexivity. destruct (Hv d eq_refl).
Qed.

(** X13. Each operation sends a fixed number of requests whatever it is
    answered: token acquisition one POST, an API client call one GET, an
    extraction pass one GET however many pipelines are listed, and
    construction either nothing or the one token POST. *)
Theorem requests_sent (rt : runtime) :
  (∀ tenant_id client_id client_secret log,
     (_get_azure_token rt tenant_id client_id client_secret log).2 =
       log ++ [token_request rt tenant_id client_id client_secret]) ∧
  (∀ self path params log,
     (_arm rt self path params log).2 =
       log ++ [_arm_request rt self path params]) ∧
  (∀ self log,
     (next_record rt self log).2 =
       log ++ [_arm_request rt self (pipelines_path self) None]) ∧
  (∀ opts log,
     (__init__ rt opts log).2 = log ∨
     ∃ tenant_id client_id client_secret,
       (__init__ rt opts log).2 =
         log ++ [token_request rt tenant_id client_id client_secret]).
Proof.
  split; [|split; [|split]].
  - intros t c s log. rewrite _get_azure_token_run. reflexivity.
  - intros self path params log. rewrite _arm_run. reflexivity.
  - intros self log. unfold next_record.
    pose proof (_list_pipelines_run rt self log) as H.
    destruct (_list_pipelines rt self log) as [[v|e] log'];
      injection H as _ ->; reflexivity.
  - intros opts log. unfold __init__.
    repeat (read_option; [|left; reflexivity]).
    right. eexists _, _, _. unfold mbind at 1, M_bind.
    rewrite _get_azure_token_run.
    destruct (net rt log _) as [r|t]; [|reflexivity].
    destruct (_ ← raise_for_status r; _); reflexivity.
Qed.

Lemma __init___succeeds (rt : runtime) (opts : gmap string string)
    (log log' : list Request)
    (sub rg factory tenant cid csec service_name : string) (tok : pyval) :
  opts !! "subscription_id" = Some sub →
  opts !! "resource_group" = Some rg →
  opts !! "factory_name" = Some factory →
  opts !! "tenant_id" = Some tenant →
  opts !! "client_id" = Some cid →
  opts !! "client_secret" = Some csec →
  opts !! "service_name" = Some service_name →
  _get_azure_token rt tenant cid csec log = (Ok tok, log') →
  __init__ rt opts log =
    (Ok (mkADFSource sub rg factory tenant cid csec service_name
           (default "default" (opts !! "project")) tok
           (mkSession (<["Authorization" := "Bearer " +:+ py_str rt tok]>
                         (default_headers rt)))
           "2018-06-01"),
     log').
Proof.
  intros H1 H2 H3 H4 H5 H6 H7 Htok. unfold __init__.
  rewrite bind_opts_subscript, H1, bind_opts_subscript, H2,
    bind_opts_subscript, H3, bind_opts_subscript, H4,
    bind_opts_subscript, H5, bind_opts_subscript, H6,
    bind_opts_subscript, H7.
  unfold mbind at 1, M_bind. rewrite Htok. reflexivity.
Qed.

(** X14. With the seven required options present and a token endpoint
    that answers with an [access_token], construction succeeds after the
    one token request: the extractor holds the options as given, the
    token, and [project] as configured, or ["default"] when the optional
    [project] is absent. *)
Theorem __init___builds_extractor (rt : runtime)
    (opts : gmap string string) (log : list Request) (r : Response)
    (body : gmap string pyval)
    (sub_id rgroup fname tenant_id client_id client_secret svc : string)
    (tok : pyval) :
  opts !! "subscription_id" = Some sub_id →
  opts !! "resource_group" = Some rgroup →
  opts !! "factory_name" = Some fname →
  opts !! "tenant_id" = Some tenant_id →
  opts !! "client_id" = Some client_id →
  opts !! "client_secret" = Some client_secret →
  opts !! "service_name" = Some svc →
  net rt log (token_request rt tenant_id client_id client_secret)
    = Responds r →
  raise_for_status r = Ok tt →
  json r = Some (PDict body) →
  body !! "access_token" = Some tok →
  ∃ self,
    __init__ rt opts log =
      (Ok self,
       log ++ [token_request rt tenant_id client_id client_secret]) ∧
    sub self = sub_id ∧ rg self = rgroup ∧ factory self = fname ∧
    service_name self = svc ∧ token self = tok ∧
    (opts !! "project" = None → project self = "default") ∧
    (∀ p, opts !! "project" = Some p → project self = p).
Proof.
  intros H1 H2 H3 H4 H5 H6 H7 Hnet Hst Hjson Htok.
  eexists. split.
  - apply __init___succeeds; try eassumption.
    rewrite _get_azure_token_run, Hnet, Hst. unfold response_json.
    rewrite Hjson. cbn [mbind result_bind py_subscript]. rewrite Htok.
    reflexivity.
  - cbn. repeat split; try reflexivity; intros; subst;
      match goal with H : opts !! "project" = _ |- _ => rewrite H end;
      reflexivity.
Qed.

(** X15. When required options are missing, the [KeyError] names the
    first one in the order [__init__] reads them (subscription,
    resource group, factory, tenant, client id, client secret, service
    name), and nothing has been sent. *)
Theorem __init___first_missing_option (rt : runtime)
    (opts : gmap string string) (log : list Request) (k : string) :
  first_missing opts = Some k →
  __init__ rt opts log = (Raise (KeyError k), log).
Proof.
  unfold first_missing, required_options. cbn [find]. intros H.
  unfold __init__.
  repeat (read_option; [|injection H as <-; reflexivity]).
  discriminate H.
Qed.

(** X16. The query parameters of an API client call are the extra
    parameters and [api-version], and nothing besides: a key is sent
    with the extra value when the extras have it, [api-version] is sent
    with the extractor's version when they do not, and no other key is
    sent.  An empty extra map is the same as none. *)
Theorem _arm_params_exact (self : ADFSource)
    (params : option (gmap string pyval)) (k : string) :
  _arm_params self params !! k =
    match default ∅ params !! k with
    | Some v => Some v
    | None =>
        if bool_decide (k = "api-version")
        then Some (PStr (api_version self))
        else None
    end.
Proof.
  assert (Hp : ({[ "api-version" := PStr (api_version self) ]}
                  : gmap string pyval) !! k =
               if bool_decide (k = "api-version")
               then Some (PStr (api_version self)) else None).
  { case_bool_decide as Hk.
    - subst k. apply lookup_singleton_eq.
    - apply lookup_singleton_ne. congruence. }
  unfold _arm_params. destruct params as [extra|]; cbn [default from_option id].
  - destruct (truthy (PDict extra)) eqn:Ht.
    + destruct (extra !! k) as [v|] eqn:He.
      * apply lookup_union_Some_l, He.
      * rewrite lookup_union_r by exact He. exact Hp.
    + cbn in Ht.
      apply negb_false_iff, Nat.eqb_eq, map_size_empty_iff in Ht.
      subst extra. rewrite lookup_empty. exact Hp.
  - rewrite lookup_empty. exact Hp.
Qed.

(** X17. Construction followed by one extraction pass sends two
    requests: the token POST, then a GET for the pipelines of the
    configured subscription, resource group and factory, with the
    [Authorization] header made from the token the POST returned, with
    [api-version=2018-06-01] as its only query parameter and a timeout
    of 60. *)
Theorem construction_then_extraction (rt : runtime)
    (opts : gmap string string) (log : list Request) (r : Response)
    (body : gmap string pyval)
    (sub_id rgroup fname tenant_id client_id client_secret svc : string)
    (tok : pyval) :
  opts !! "subscription_id" = Some sub_id →
  opts !! "resource_group" = Some rgroup →
  opts !! "factory_name" = Some fname →
  opts !! "tenant_id" = Some tenant_id →
  opts !! "client_id" = Some client_id →
  opts !! "client_secret" = Some client_secret →
  opts !! "service_name" = Some svc →
  net rt log (token_request rt tenant_id client_id client_secret)
    = Responds r →
  raise_for_status r = Ok tt →
  json r = Some (PDict body) →
  body !! "access_token" = Some tok →
  ∃ self log1,
    __init__ rt opts log = (Ok self, log1) ∧
    (next_record rt self log1).2 =
      log ++ [token_request rt tenant_id client_id client_secret;
              mkRequest GET
                (urljoin rt ARM
                   ("/subscriptions/" +:+ sub_id +:+ "/resourceGroups/"
                    +:+ rgroup
                    +:+ "/providers/Microsoft.DataFactory/factories/"
                    +:+ fname +:+ "/pipelines"))
                (<["Authorization" := "Bearer " +:+ py_str rt tok]>
                   (default_headers rt))
                {[ "api-version" := PStr "2018-06-01" ]}
                ∅ 60].
Proof.
  intros H1 H2 H3 H4 H5 H6 H7 Hnet Hst Hjson Htok.
  eexists _, _. split.
  - apply __init___succeeds; try eassumption.
    rewrite _get_azure_token_run, Hnet, Hst. unfold response_json.
    rewrite Hjson. cbn [mbind result_bind py_subscript]. rewrite Htok.
    reflexivity.
  - unfold next_record.
    match goal with
    | |- context [_list_pipelines rt ?s ?l] =>
        pose proof (_list_pipelines_run rt s l) as H;
        destruct (_list_pipelines rt s l) as [[v|e] log']
    end; injection H as _ ->; cbn [snd]; rewrite <- app_assoc; reflexivity.
Qed.

(** ** The further properties at the example data *)

Lemma _build_tasks_body_raises_iff_witness :
  activity_ok string_sink_activity = false.
Proof.
  apply (proj1 (proj1 (_build_tasks_body_raises_iff string_sink_activity))).
  vm_compute. reflexivity.
Defined.

Lemma _build_tasks_stops_at_first_failure_witness :
  _build_tasks (PList ([PDict copyA_fields]
                       ++ null_typeProperties_activity
                       :: [null_sink_activity]))
    = Raise (AttributeError "get").
Proof.
  apply (_build_tasks_stops_at_first_failure
           [PDict copyA_fields] [null_sink_activity]
           null_typeProperties_activity (AttributeError "get"));
    vm_compute; reflexivity.
Defined.

Lemma _build_tasks_not_a_list_witness :
  _build_tasks PNone = Ok [] ∧
  _build_tasks (PInt 7) = Raise TypeError ∧
  _build_tasks (PStr "Copy") = Raise (AttributeError "get").
Proof.
  split; [|split].
  - apply (proj1 (_build_tasks_not_a_list PNone)). reflexivity.
  - apply (proj1 (proj2 (_build_tasks_not_a_list (PInt 7)))); reflexivity.
  - apply (proj2 (proj2 (_build_tasks_not_a_list (PStr "Copy"))));
      [reflexivity | left; eexists; reflexivity].
Defined.

Lemma _build_tasks_succeeds_iff_witness :
  ∃ ts, _build_tasks (PList [PDict copyA_fields; null_sink_activity]) = Ok ts.
Proof.
  apply (proj2 (proj1 (_build_tasks_succeeds_iff
                         (PList [PDict copyA_fields; null_sink_activity])))).
  vm_compute. reflexivity.
Defined.

Lemma _build_tasks_tasks_well_formed_witness :
  Forall task_well_formed
         [Task.mk (PStr "copyA") (PStr "Copy") (Some [PStr "BlobSink"]);
          Task.mk (PStr "a") (PStr "Copy") None] ∧
  (∀ t, t ∈ [Task.mk (PStr "copyA") (PStr "Copy") (Some [PStr "BlobSink"]);
             Task.mk (PStr "a") (PStr "Copy") None] →
        Task.downstreamTasks t ≠ Some []).
Proof.
  apply (_build_tasks_tasks_well_formed
           (PList [PDict copyA_fields; null_sink_activity])).
  vm_compute. reflexivity.
Defined.

Lemma next_record_body_succeeds_iff_witness :
  (∃ r, next_record_body scenario_self pipeline_p1 = Ok r) ∧
  pipeline_ok null_properties_pipeline = false.
Proof.
  split.
  - apply (proj2 (proj1 (next_record_body_succeeds_iff
                           scenario_self pipeline_p1))).
    vm_compute. reflexivity.
  - destruct (pipeline_ok null_properties_pipeline) eqn:Hok; [|reflexivity].
    apply (proj2 (proj1 (next_record_body_succeeds_iff
                           scenario_self null_properties_pipeline)))
      in Hok as [r Hr].
    vm_compute in Hr. discriminate Hr.
Defined.

Lemma next_record_yields_until_first_failure_witness :
  ∃ g, next_record broken_second_runtime scenario_self []
         = (g, [scenario_listing]) ∧
       ending g = Some (AttributeError "get") ∧
       Forall2 (λ p r, next_record_body scenario_self p = Ok r)
               [pipeline_p1] (yielded g).
Proof.
  apply (next_record_yields_until_first_failure
           broken_second_runtime scenario_self [] [scenario_listing]
           [pipeline_p1] [pipeline_B] null_properties_pipeline
           (AttributeError "get"));
    vm_compute; reflexivity.
Defined.

Lemma next_record_value_not_iterable_witness :
  next_record null_value_runtime scenario_self []
    = (Abort TypeError, [scenario_listing]).
Proof.
  apply (next_record_value_not_iterable
           null_value_runtime scenario_self []
           (mkResponse 200 (Some (PDict {[ "value" := PNone ]})))
           {[ "value" := PNone ]} PNone);
    vm_compute; reflexivity.
Defined.

Lemma transport_failure_propagates_witness :
  _get_azure_token timeout_runtime "t1" "c1" "secret" [] =
    (Raise (RequestException Timeout),
     [token_request timeout_runtime "t1" "c1" "secret"]) ∧
  next_record timeout_runtime scenario_self [] =
    (Abort (RequestException Timeout),
     [_arm_request timeout_runtime scenario_self
                   (pipelines_path scenario_self) None]).
Proof.
  destruct (transport_failure_propagates timeout_runtime)
    as [Htoken Hlisting].
  split.
  - apply (Htoken "t1" "c1" "secret" []). reflexivity.
  - apply (Hlisting scenario_self []). reflexivity.
Defined.

Lemma _get_azure_token_body_witness :
  (_get_azure_token odd_bodies_runtime "t1" "c1" "secret" []).1
    = Raise (KeyError "access_token") ∧
  (_get_azure_token not_json_runtime "t1" "c1" "secret" []).1
    = Raise JSONDecodeError.
Proof.
  split.
  - rewrite (_get_azure_token_body odd_bodies_runtime "t1" "c1" "secret" []
               (mkResponse 200 (Some (PDict ∅))) eq_refl eq_refl).
    vm_compute. reflexivity.
  - rewrite (_get_azure_token_body not_json_runtime "t1" "c1" "secret" []
               (mkResponse 200 None) eq_refl eq_refl).
    reflexivity.
Defined.

Lemma next_record_listing_body_witness :
  (next_record not_json_runtime scenario_self []).1 = Abort JSONDecodeError ∧
  (next_record odd_bodies_runtime scenario_self []).1
    = Abort (AttributeError "get").
Proof.
  split.
  - apply (next_record_listing_body not_json_runtime scenario_self []
             (mkResponse 200 None)); reflexivity.
  - apply (proj2 (next_record_listing_body odd_bodies_runtime scenario_self
                    [] (mkResponse 200 (Some (PList []))) eq_refl eq_refl)
             (PList [])); [reflexivity | discriminate].
Defined.

Lemma __init___builds_extractor_witness :
  ∃ self,
    __init__ scenario_runtime project_opts [] =
      (Ok self, [token_request scenario_runtime "t1" "c1" "secret"]) ∧
    service_name self = "svc" ∧ token self = PStr "tok" ∧
    project self = "analytics".
Proof.
  destruct (__init___builds_extractor
              scenario_runtime project_opts []
              (mkResponse 200 (Some token_body))
              {[ "access_token" := PStr "tok" ]}
              "s1" "rg1" "f1" "t1" "c1" "secret" "svc" (PStr "tok"))
    as (self & Hinit & _ & _ & _ & Hsvc & Htok & _ & Hproject);
    try (vm_compute; reflexivity).
  exists self. repeat split; try assumption.
  apply Hproject. vm_compute. reflexivity.
Defined.

Lemma __init___first_missing_option_witness :
  __init__ scenario_runtime
           (delete "resource_group" (delete "client_id" scenario_opts)) []
    = (Raise (KeyError "resource_group"), []).
Proof.
  apply (__init___first_missing_option scenario_runtime).
  vm_compute. reflexivity.
Defined.

Lemma construction_then_extraction_witness :
  ∃ self log1,
    __init__ scenario_runtime scenario_opts [] = (Ok self, log1) ∧
    (next_record scenario_runtime self log1).2 =
      [token_request scenario_runtime "t1" "c1" "secret";
       mkRequest GET
         "https://management.azure.com/subscriptions/s1/resourceGroups/rg1/providers/Microsoft.DataFactory/factories/f1/pipelines"
         {[ "Authorization" := "Bearer tok" ]}
         {[ "api-version" := PStr "2018-06-01" ]}
         ∅ 60].
Proof.
  destruct (construction_then_extraction
              scenario_runtime scenario_opts []
              (mkResponse 200 (Some token_body))
              {[ "access_token" := PStr "tok" ]}
              "s1" "rg1" "f1" "t1" "c1" "secret" "svc" (PStr "tok"))
    as (self & log1 & Hinit & Hlog);
    try (vm_compute; reflexivity).
  exists self, log1. split; [exact Hinit|].
  rewrite Hlog. vm_compute. reflexivity.
Defined.
